(** * boltons.pathutils: augpath, shrinkuser, expandpath, userhome

    A shallow embedding of [boltons/pathutils.py] and of the part of the
    host's [os.path] it calls, followed by the properties of the
    specification that were checked against it.

    Python [str] values are lists of characters; [os.environ] and the
    account database are finite maps; an exception is the [Raise] branch
    of a small error monad. *)

From Stdlib Require Import ZArith Ascii String.
From stdpp Require Import base option list gmap strings pretty.

Local Open Scope Z_scope.

(** ** Python strings *)

Abbreviation str := (list ascii).

(** A literal: [py "foo.bar"] is the Python string ['foo.bar']. *)
Definition py (s : string) : str := list_ascii_of_string s.

Definition chr_sep : ascii := "/"%char.
Definition chr_dot : ascii := "."%char.
Definition chr_tilde : ascii := "~"%char.
Definition chr_nul : ascii := "000"%char.

Module PyStr.

(** [s.find(c)]: index of the first [c], or [-1]. *)
Fixpoint find (c : ascii) (s : str) : Z :=
  match s with
  | [] => -1
  | x :: s' =>
      if decide (x = c) then 0
      else let r := find c s' in if r <? 0 then -1 else r + 1
  end.

(** [s.rfind(c)]: index of the last [c], or [-1]. *)
Fixpoint rfind (c : ascii) (s : str) : Z :=
  match s with
  | [] => -1
  | x :: s' =>
      let r := rfind c s' in
      if 0 <=? r then r + 1
      else if decide (x = c) then 0 else -1
  end.

(** [s[:i]] and [s[i:]] for an index [i] that is not negative. *)
Definition upto (i : Z) (s : str) : str := take (Z.to_nat i) s.
Definition from (i : Z) (s : str) : str := drop (Z.to_nat i) s.

(** [s[i:j]] for indices that are not negative. *)
Definition slice (i j : Z) (s : str) : str := upto (j - i) (from i s).

(** [s.find(c, start)] for a start that is not negative. *)
Definition find_from (c : ascii) (start : Z) (s : str) : Z :=
  let r := find c (from start s) in
  if r <? 0 then -1 else r + start.

(** The longest prefix of [s] whose characters satisfy [P], and the
    rest of [s]. *)
Fixpoint span (P : ascii -> bool) (s : str) : str * str :=
  match s with
  | [] => ([], [])
  | c :: s' =>
      if P c then let '(a, b) := span P s' in (c :: a, b) else ([], s)
  end.

(** [s.startswith(t)] and [s.endswith(t)]. *)
Definition startswith (s t : str) : bool := bool_decide (t `prefix_of` s).
Definition endswith (s t : str) : bool := bool_decide (t `suffix_of` s).

(** [s.rstrip(c)] for a one-character [c]. *)
Fixpoint rstrip (c : ascii) (s : str) : str :=
  match s with
  | [] => []
  | x :: s' =>
      match rstrip c s' with
      | [] => if decide (x = c) then [] else [x]
      | r => x :: r
      end
  end.

(** [s.split(c, 1)]: at most one split, at the first [c]. *)
Definition split1 (c : ascii) (s : str) : list str :=
  let i := find c s in
  if i <? 0 then [s] else [upto i s; from (i + 1) s].

(** [s.split(c)]: split at every [c]; never the empty list. *)
Fixpoint split_all (c : ascii) (s : str) : list str :=
  match s with
  | [] => [[]]
  | x :: s' =>
      match split_all c s' with
      | [] => [[]]
      | w :: ws => if decide (x = c) then [] :: w :: ws else (x :: w) :: ws
      end
  end.

(** [c.join(parts)]. *)
Fixpoint join (c : ascii) (parts : list str) : str :=
  match parts with
  | [] => []
  | [w] => w
  | w :: ws => w ++ c :: join c ws
  end.

End PyStr.

(** ** Exceptions *)

Inductive exn :=
  | OSError (msg : str)
  | KeyError (msg : str)
  | IndexError (msg : str)
  | ValueError (msg : str).

Inductive result (A : Type) :=
  | Ok (a : A)
  | Raise (e : exn).
Arguments Ok {A} a.
Arguments Raise {A} e.

(** Sequencing: an exception of the first statement skips the rest.
    With the instance, [x ← m; k] is stdpp's notation for it. *)
#[global] Instance result_bind : MBind result := fun A B k m =>
  match m with
  | Ok a => k a
  | Raise e => Raise e
  end.

#[global] Instance result_fmap : FMap result := fun A B f m =>
  match m with
  | Ok a => Ok (f a)
  | Raise e => Raise e
  end.

(** [l[i]] on a Python list. *)
Definition list_item {A} (l : list A) (i : nat) : result A :=
  match l !! i with
  | Some a => Ok a
  | None => Raise (IndexError (py "list index out of range"))
  end.

(** [s[i]] on a Python string. *)
Definition str_item (s : str) (i : nat) : result ascii :=
  match s !! i with
  | Some a => Ok a
  | None => Raise (IndexError (py "string index out of range"))
  end.

(** The two error kinds of the specification are Python's [OSError] and
    [KeyError] in the code. *)
Definition is_ResolutionError (e : exn) : Prop :=
  match e with OSError _ => True | _ => False end.
Definition is_UnknownUserError (e : exn) : Prop :=
  match e with KeyError _ => True | _ => False end.

(** ** The process environment and the account database *)

Record passwd := { pw_name : str; pw_uid : N; pw_dir : str }.

(** What the code reads from the operating system: [os.environ],
    [os.getuid()], the account database behind the [pwd] module (by user
    id and by name) and the file system behind [os.path.exists]. *)
Record OsEnv := {
  environ : gmap str str;
  getuid : N;
  pwd_by_uid : gmap N passwd;
  pwd_by_name : gmap str passwd;
  fs_exists : str -> bool
}.

(** [os.environ[name]]. *)
Definition environ_item (os : OsEnv) (name : str) : result str :=
  match environ os !! name with
  | Some v => Ok v
  | None => Raise (KeyError name)
  end.

(** [pwd.getpwuid(uid)]: a [KeyError] of the library when the database
    has no record of the user id. *)
Definition getpwuid (os : OsEnv) (uid : N) : result passwd :=
  match pwd_by_uid os !! uid with
  | Some pwent => Ok pwent
  | None => Raise (KeyError (py "getpwuid(): uid not found: " ++ py (pretty uid)))
  end.

(** [pwd.getpwnam(name)]: the library refuses a name that contains a NUL
    character with a [ValueError], before any lookup; otherwise a
    [KeyError] when the database has no record of the name. *)
Definition getpwnam (os : OsEnv) (name : str) : result passwd :=
  if bool_decide (chr_nul ∈ name) then
    Raise (ValueError (py "embedded null byte"))
  else
    match pwd_by_name os !! name with
    | Some pwent => Ok pwent
    | None => Raise (KeyError (py "getpwnam(): name not found: '" ++ name ++ py "'"))
    end.

(** ** The host's [os.path] on a POSIX system *)

Module posixpath.

Definition sep : ascii := chr_sep.

(** [split(p)]: head and tail around the last separator; the head loses
    its trailing separators unless it consists of separators only. *)
Definition split (p : str) : str * str :=
  let i := PyStr.rfind sep p + 1 in
  let head := PyStr.upto i p in
  let tail := PyStr.from i p in
  let head :=
    if negb (bool_decide (head = [])) &&
       negb (bool_decide (head = replicate (length head) sep))
    then PyStr.rstrip sep head else head in
  (head, tail).

(** The loop of [genericpath._splitext] that skips leading dots: [true]
    when a character other than a dot is met before [dotIndex]; [n] is
    [dotIndex - filenameIndex]. *)
Fixpoint splitext_scan (p : str) (filenameIndex : Z) (n : nat) : bool :=
  match n with
  | O => false
  | S n' =>
      if bool_decide (PyStr.slice filenameIndex (filenameIndex + 1) p
                      <> [chr_dot])
      then true
      else splitext_scan p (filenameIndex + 1) n'
  end.

(** [splitext(p)]: the extension starts at the last dot of the last
    component, leading dots of that component apart. *)
Definition splitext (p : str) : str * str :=
  let sepIndex := PyStr.rfind sep p in
  let dotIndex := PyStr.rfind chr_dot p in
  if (sepIndex <? dotIndex) &&
     splitext_scan p (sepIndex + 1) (Z.to_nat (dotIndex - (sepIndex + 1)))
  then (PyStr.upto dotIndex p, PyStr.from dotIndex p)
  else (p, []).

(** [join(a, b)]. *)
Definition join (a b : str) : str :=
  if PyStr.startswith b [sep] then b
  else if bool_decide (a = []) || PyStr.endswith a [sep] then a ++ b
  else a ++ sep :: b.

(** [dirname(p)]. *)
Definition dirname (p : str) : str := fst (split p).

(** The loop of [normpath] over the components; [new_comps] grows and
    shrinks at its end. *)
Fixpoint normpath_loop (initial_slashes : nat) (comps new_comps : list str)
  : list str :=
  match comps with
  | [] => new_comps
  | comp :: comps' =>
      if bool_decide (comp = [] \/ comp = py ".") then
        normpath_loop initial_slashes comps' new_comps
      else if bool_decide (comp <> py "..")
           || (bool_decide (initial_slashes = O) &&
               bool_decide (new_comps = []))
           || (negb (bool_decide (new_comps = [])) &&
               bool_decide (last new_comps = Some (py "..")))
      then normpath_loop initial_slashes comps' (new_comps ++ [comp])
      else if negb (bool_decide (new_comps = []))
      then normpath_loop initial_slashes comps' (removelast new_comps)
      else normpath_loop initial_slashes comps' new_comps
  end.

(** [normpath(path)]. *)
Definition normpath (path : str) : str :=
  if bool_decide (path = []) then py "."
  else
    let initial_slashes :=
      if PyStr.startswith path [sep] then
        if PyStr.startswith path (replicate 2 sep) &&
           negb (PyStr.startswith path (replicate 3 sep))
        then 2%nat else 1%nat
      else O in
    let comps := PyStr.split_all sep path in
    let comps := normpath_loop initial_slashes comps [] in
    let path := PyStr.join sep comps in
    let path :=
      if bool_decide (initial_slashes <> O)
      then replicate initial_slashes sep ++ path else path in
    if bool_decide (path = []) then py "." else path.

(** [expanduser(path)]: a leading [~] or [~user] becomes the home
    directory; a lookup that fails leaves the path as it is. *)
Definition expanduser (os : OsEnv) (path : str) : result str :=
  if negb (PyStr.startswith path [chr_tilde]) then Ok path
  else
    let i := PyStr.find_from sep 1 path in
    let i := if i <? 0 then Z.of_nat (length path) else i in
    let finish (userhome : str) : result str :=
      let userhome := PyStr.rstrip sep userhome in
      let r := userhome ++ PyStr.from i path in
      Ok (if bool_decide (r = []) then [sep] else r) in
    if i =? 1 then
      if bool_decide (environ os !! py "HOME" = None) then
        match getpwuid os (getuid os) with
        | Ok pwent => finish (pw_dir pwent)
        | Raise (KeyError _) => Ok path
        | Raise e => Raise e
        end
      else userhome ← environ_item os (py "HOME"); finish userhome
    else
      let name := PyStr.slice 1 i path in
      match getpwnam os name with
      | Ok pwent => finish (pw_dir pwent)
      | Raise (KeyError _) => Ok path
      | Raise e => Raise e
      end.

(** [\w] under [re.ASCII]. *)
Definition is_word (c : ascii) : bool :=
  let n := N_of_ascii c in
  ((48 <=? n) && (n <=? 57) || (65 <=? n) && (n <=? 90) ||
   (97 <=? n) && (n <=? 122) || (n =? 95))%N.

(** The text that [\w+|\{[^}]*\}?] matches at the start of [s], if
    any: group 1 of [_varpattern] once its [$] is read. *)
Definition match_name (s : str) : option str :=
  match s with
  | [] => None
  | c :: s' =>
      if is_word c then Some (fst (PyStr.span is_word s))
      else if bool_decide (c = "{"%char) then
        let '(body, rest) :=
          PyStr.span (fun x => negb (bool_decide (x = "}"%char))) s' in
        match rest with
        | [] => Some (c :: body)
        | x :: _ => Some (c :: body ++ [x])
        end
      else None
  end.

(** [repl] of [expandvars] on a match whose group 1 is [name]. *)
Definition expandvars_repl (os : OsEnv) (name : str) : result str :=
  let m0 := "$"%char :: name in
  if PyStr.startswith name (py "{") && negb (PyStr.endswith name (py "}"))
  then Ok m0
  else
    let name :=
      if PyStr.startswith name (py "{") then removelast (drop 1 name)
      else name in
    match environ_item os name with
    | Ok value => Ok value
    | Raise (KeyError _) => Ok m0
    | Raise e => Raise e
    end.

(** [re.sub] with [_varpattern] and [repl], left to right; [skip]
    counts the characters of the current match still to pass over. *)
Fixpoint expandvars_sub (os : OsEnv) (skip : nat) (s : str) : result str :=
  match s with
  | [] => Ok []
  | c :: s' =>
      match skip with
      | S k => expandvars_sub os k s'
      | O =>
          match (if bool_decide (c = "$"%char) then match_name s' else None) with
          | Some name =>
              r ← expandvars_repl os name;
              t ← expandvars_sub os (length name) s';
              Ok (r ++ t)
          | None => t ← expandvars_sub os O s'; Ok (c :: t)
          end
      end
  end.

(** [expandvars(path)]. *)
Definition expandvars (os : OsEnv) (path : str) : result str :=
  if bool_decide ("$"%char ∉ path) then Ok path
  else expandvars_sub os O path.

End posixpath.

(** ** The interface of [os.path]

    [pathutils] imports its path operations from [os.path], which is
    [posixpath] or [ntpath] by platform. The operations on strings alone
    return strings; the two that read the environment may raise. *)
Record OsPath := {
  os_sep : ascii;
  os_split : str -> str * str;
  os_splitext : str -> str * str;
  os_join : str -> str -> str;
  os_dirname : str -> str;
  os_normpath : str -> str;
  os_expanduser : OsEnv -> str -> result str;
  os_expandvars : OsEnv -> str -> result str
}.

Record Host := {
  sys_platform : str;
  host_os : OsEnv;
  host_path : OsPath
}.

Definition posix : OsPath := {|
  os_sep := posixpath.sep;
  os_split := posixpath.split;
  os_splitext := posixpath.splitext;
  os_join := posixpath.join;
  os_dirname := posixpath.dirname;
  os_normpath := posixpath.normpath;
  os_expanduser := posixpath.expanduser;
  os_expandvars := posixpath.expandvars
|}.

(** A POSIX host ([sys.platform] is ['linux']) in the state [os]. *)
Definition posix_host (os : OsEnv) : Host :=
  {| sys_platform := py "linux"; host_os := os; host_path := posix |}.

(** ** pathutils *)

(** [augpath], lines 88 to 96: the path broken up into directory, base
    name and extension. *)
Definition augpath_breakup (P : OsPath) (path : str) (multidot : bool)
  : result (str * str * str) :=
  let '(orig_dpath, fname) := os_split P path in
  if multidot then
    (* The first dot defines the extension *)
    let parts := PyStr.split1 chr_dot fname in
    orig_base ← list_item parts 0;
    orig_ext ← (if bool_decide (length parts = 1%nat) then Ok []
                else p1 ← list_item parts 1; Ok (chr_dot :: p1));
    Ok (orig_dpath, orig_base, orig_ext)
  else
    (* The last dot defines the extension *)
    let '(orig_base, orig_ext) := os_splitext P fname in
    Ok (orig_dpath, orig_base, orig_ext).

(** [augpath(path, suffix, prefix, ext, base, dpath, multidot)]; [None]
    for an override that is not given. *)
Definition augpath (P : OsPath) (path suffix prefix : str)
    (ext base dpath : option str) (multidot : bool) : result str :=
  '(orig_dpath, orig_base, orig_ext) ← augpath_breakup P path multidot;
  (* Replace parts with specified augmentations *)
  let dpath := default orig_dpath dpath in
  let ext := default orig_ext ext in
  let base := default orig_base base in
  (* Recombine into new path *)
  let new_fname := prefix ++ base ++ suffix ++ ext in
  let newpath := os_join P dpath new_fname in
  Ok newpath.

(** [userhome()] with no user name: lines 181 to 196. *)
Definition userhome_current (h : Host) : result str :=
  let os := host_os h in
  if bool_decide (is_Some (environ os !! py "HOME")) then
    environ_item os (py "HOME")
  else if PyStr.startswith (sys_platform h) (py "win32") then
    (* win32 fallback when HOME is not defined *)
    if bool_decide (is_Some (environ os !! py "USERPROFILE")) then
      environ_item os (py "USERPROFILE")
    else if bool_decide (is_Some (environ os !! py "HOMEPATH")) then
      let drive := default [] (environ os !! py "HOMEDRIVE") in
      homepath ← environ_item os (py "HOMEPATH");
      Ok (os_join (host_path h) drive homepath)
    else Raise (OSError (py "Cannot determine the user's home directory"))
  else
    (* posix fallback when HOME is not defined *)
    pwent ← getpwuid os (getuid os);
    Ok (pw_dir pwent).

(** [userhome(username)]. The call [userhome()] of the win32 branch for a
    named user is the branch above. *)
Definition userhome (h : Host) (username : option str) : result str :=
  let os := host_os h in
  match username with
  | None => userhome_current h
  | Some username =>
      (* A specific user directory was requested *)
      if PyStr.startswith (sys_platform h) (py "win32") then
        current ← userhome_current h;
        let c_users := os_dirname (host_path h) current in
        let userhome_dpath := os_join (host_path h) c_users username in
        if negb (fs_exists os userhome_dpath)
        then Raise (KeyError (py "Unknown user: " ++ username))
        else Ok userhome_dpath
      else
        match getpwnam os username with
        | Ok pwent => Ok (pw_dir pwent)
        | Raise (KeyError _) => Raise (KeyError (py "Unknown user: " ++ username))
        | Raise e => Raise e
        end
  end.

(** [shrinkuser(path, home)]. *)
Definition shrinkuser (h : Host) (path home : str) : result str :=
  let path := os_normpath (host_path h) path in
  userhome_dpath ← userhome h None;
  if PyStr.startswith path userhome_dpath then
    if bool_decide (length path = length userhome_dpath) then Ok home
    else
      c ← str_item path (length userhome_dpath);
      if bool_decide (c = os_sep (host_path h))
      then Ok (home ++ PyStr.from (Z.of_nat (length userhome_dpath)) path)
      else Ok path
  else Ok path.

(** [expandpath(path)]. *)
Definition expandpath (h : Host) (path : str) : result str :=
  path ← os_expanduser (host_path h) (host_os h) path;
  path ← os_expandvars (host_path h) (host_os h) path;
  Ok path.

(** ** Shapes and states the properties are stated with *)

(** The final component of [p] is preceded by two or more separators
    that follow a character other than a separator, as in ['a//b']. *)
Definition doubled_sep_before_name (p : str) : Prop :=
  exists a t, p = a ++ chr_sep :: chr_sep :: t /\ (chr_sep ∉ t) /\
              a <> replicate (length a) chr_sep.

(** [sys.platform.startswith('win32')]. *)
Definition is_win32 (h : Host) : bool :=
  PyStr.startswith (sys_platform h) (py "win32").

(** A win32 host. Its [os.path] is [ntpath], which is not modelled: what
    is proved of win32 hosts holds whatever the path operations are. *)
Definition win32_host (ntpath : OsPath) (os : OsEnv) : Host :=
  {| sys_platform := py "win32"; host_os := os; host_path := ntpath |}.

Definition pw_user : passwd :=
  {| pw_name := py "user"; pw_uid := 1000; pw_dir := py "/home/user" |}.

(** No environment variable and no account record. *)
Definition os_bare : OsEnv :=
  {| environ := ∅; getuid := 1000; pwd_by_uid := ∅; pwd_by_name := ∅;
     fs_exists := fun _ => false |}.

(** The account [user] with [HOME] set to its home directory. *)
Definition os_user : OsEnv :=
  {| environ := {[ py "HOME" := py "/home/user" ]}; getuid := 1000;
     pwd_by_uid := {[ 1000%N := pw_user ]};
     pwd_by_name := {[ py "user" := pw_user ]};
     fs_exists := fun _ => false |}.

(** The same account with [HOME] set to the empty string. *)
Definition os_empty_home : OsEnv :=
  {| environ := {[ py "HOME" := [] ]}; getuid := 1000;
     pwd_by_uid := {[ 1000%N := pw_user ]};
     pwd_by_name := {[ py "user" := pw_user ]};
     fs_exists := fun _ => false |}.

(** The heads that [split] returns: separators only, or ending in a
    character other than a separator. *)
Definition split_head (d : str) : Prop :=
  d = replicate (length d) chr_sep \/ exists u x, d = u ++ [x] /\ x <> chr_sep.

(** ** Tactics *)

(** A variable the environment does not define fails its [in] test. *)
Ltac unset_vars :=
  repeat match goal with
         | |- context [bool_decide (is_Some None)] =>
             rewrite (bool_decide_eq_false_2 (is_Some None))
               by (intros [? ?]; discriminate)
         end.

(** A closed decidable proposition, settled by evaluating its decision. *)
Ltac by_decide :=
  match goal with
  | |- ?P => apply (bool_decide_unpack P); vm_compute; exact I
  end.

(** * Properties *)

(** ** The examples of the docstrings, on a POSIX host *)

Example augpath_doc_all :
  augpath posix (py "foo.bar") (py "_suff") (py "pref_") (Some (py ".baz"))
    (Some (py "bar")) None false = Ok (py "pref_bar_suff.baz").
Proof. reflexivity. Qed.

Example augpath_doc_plain :
  augpath posix (py "foo.bar") [] [] None None None false = Ok (py "foo.bar").
Proof. reflexivity. Qed.

Example augpath_doc_ext :
  augpath posix (py "foo.bar") [] [] (Some (py ".BAZ")) None None false
    = Ok (py "foo.BAZ").
Proof. reflexivity. Qed.

Example augpath_doc_suffix :
  augpath posix (py "foo.bar") (py "_") [] None None None false
    = Ok (py "foo_.bar").
Proof. reflexivity. Qed.

Example augpath_doc_prefix :
  augpath posix (py "foo.bar") [] (py "_") None None None false
    = Ok (py "_foo.bar").
Proof. reflexivity. Qed.

Example augpath_doc_base :
  augpath posix (py "foo.bar") [] [] None (Some (py "baz")) None false
    = Ok (py "baz.bar").
Proof. reflexivity. Qed.

Example augpath_doc_multidot_suffix :
  augpath posix (py "foo.tar.gz") (py "_new") [] None None None true
    = Ok (py "foo_new.tar.gz").
Proof. reflexivity. Qed.

Example userhome_doc :
  userhome (posix_host os_user) None
    = posixpath.expanduser os_user (py "~") /\
  userhome (posix_host os_user) (Some (py "user"))
    = posixpath.expanduser os_user (py "~").
Proof. split; reflexivity. Qed.

Example shrinkuser_doc :
  shrinkuser (posix_host os_user) (py "/home/user") (py "~") = Ok (py "~") /\
  shrinkuser (posix_host os_user) (py "/home/user1") (py "~")
    = Ok (py "/home/user1") /\
  shrinkuser (posix_host os_user) (py "/home/user/1") (py "~")
    = Ok (posixpath.join (py "~") (py "1")) /\
  shrinkuser (posix_host os_user) (py "/home/user/1") (py "$HOME")
    = Ok (posixpath.join (py "$HOME") (py "1")).
Proof. repeat split; reflexivity. Qed.

Example expandpath_doc :
  posixpath.normpath <$> expandpath (posix_host os_user) (py "~/foo")
    = posixpath.join (py "/home/user") <$> Ok (py "foo") /\
  expandpath (posix_host os_user) (py "foo") = Ok (py "foo").
Proof. split; reflexivity. Qed.

Example expandpath_vars :
  expandpath (posix_host os_user) (py "~/a/$HOME/${HOME}x/$NOPE/${a")
    = Ok (py "/home/user/a//home/user//home/userx/$NOPE/${a").
Proof. reflexivity. Qed.

(** ** Python strings *)

Section str_lemmas.
Context (c : ascii).
Implicit Types s a b : str.

Lemma upto_from i s : PyStr.upto i s ++ PyStr.from i s = s.
Proof. apply take_drop. Qed.

Lemma rfind_range s : -1 <= PyStr.rfind c s < Z.of_nat (length s).
Proof.
  induction s as [|x s IH]; simpl; [lia|].
  destruct (Z.leb_spec 0 (PyStr.rfind c s)); [lia|].
  destruct (decide (x = c)); lia.
Qed.

Lemma rfind_notin s : c ∉ s -> PyStr.rfind c s = -1.
Proof.
  induction s as [|x s IH]; simpl; [done|].
  intros [Hx Hs]%not_elem_of_cons. rewrite (IH Hs). simpl.
  destruct (decide (x = c)); congruence.
Qed.

Lemma rfind_neg_notin s : PyStr.rfind c s < 0 -> c ∉ s.
Proof.
  induction s as [|x s IH]; simpl; [intros _; apply not_elem_of_nil|].
  pose proof (rfind_range s).
  destruct (Z.leb_spec 0 (PyStr.rfind c s)); [lia|].
  destruct (decide (x = c)); [lia|].
  intros _. apply not_elem_of_cons. split; [done|]. apply IH. lia.
Qed.

Lemma rfind_last a b : c ∉ b -> PyStr.rfind c (a ++ c :: b) = Z.of_nat (length a).
Proof.
  intros Hb. induction a as [|x a IH]; simpl.
  - rewrite (rfind_notin b Hb). simpl. by rewrite decide_True.
  - rewrite IH. destruct (Z.leb_spec 0 (Z.of_nat (length a))); lia.
Qed.

Lemma rfind_split s :
  0 <= PyStr.rfind c s ->
  exists a b, s = a ++ c :: b /\ (c ∉ b) /\ PyStr.rfind c s = Z.of_nat (length a).
Proof.
  induction s as [|x s IH]; simpl; [lia|].
  destruct (Z.leb_spec 0 (PyStr.rfind c s)) as [Hr|Hr].
  - intros _. destruct (IH Hr) as (a & b & -> & Hb & Hlen).
    exists (x :: a), b. repeat split; [done|]. rewrite Hlen. simpl length. lia.
  - destruct (decide (x = c)) as [->|]; [|lia].
    intros _. exists [], s. repeat split. by apply rfind_neg_notin.
Qed.

Lemma find_range s : -1 <= PyStr.find c s < Z.of_nat (length s).
Proof.
  induction s as [|x s IH]; simpl; [lia|].
  destruct (decide (x = c)); [lia|].
  destruct (Z.ltb_spec (PyStr.find c s) 0); lia.
Qed.

Lemma find_notin s : c ∉ s -> PyStr.find c s = -1.
Proof.
  induction s as [|x s IH]; simpl; [done|].
  intros [Hx Hs]%not_elem_of_cons. rewrite (IH Hs), decide_False by done. done.
Qed.

Lemma find_first a b : c ∉ a -> PyStr.find c (a ++ c :: b) = Z.of_nat (length a).
Proof.
  induction a as [|x a IH]; simpl.
  - intros _. by rewrite decide_True.
  - intros [Hx Ha]%not_elem_of_cons. rewrite decide_False by done.
    rewrite (IH Ha). destruct (Z.ltb_spec (Z.of_nat (length a)) 0); lia.
Qed.

Lemma upto_length_app a b : PyStr.upto (Z.of_nat (length a)) (a ++ b) = a.
Proof. unfold PyStr.upto. rewrite Nat2Z.id. by rewrite take_app_length. Qed.

Lemma from_length_app a b : PyStr.from (Z.of_nat (length a)) (a ++ b) = b.
Proof. unfold PyStr.from. rewrite Nat2Z.id. by rewrite drop_app_length. Qed.

Lemma rstrip_snoc s : PyStr.rstrip c (s ++ [c]) = PyStr.rstrip c s.
Proof.
  induction s as [|x s IH]; simpl; [by rewrite decide_True|]. by rewrite IH.
Qed.

Lemma rstrip_keep s x : x <> c -> PyStr.rstrip c (s ++ [x]) = s ++ [x].
Proof.
  intros Hx. induction s as [|y s IH]; simpl; [by rewrite decide_False|].
  rewrite IH. by destruct s.
Qed.

Lemma rstrip_replicate n : PyStr.rstrip c (replicate n c) = [].
Proof. induction n as [|n IH]; simpl; [done|]. rewrite IH. by rewrite decide_True. Qed.

Lemma rstrip_tail u x k :
  x <> c -> PyStr.rstrip c (u ++ x :: replicate k c) = u ++ [x].
Proof.
  intros Hx. induction k as [|k IH]; simpl.
  - rewrite (rstrip_keep u x Hx). done.
  - rewrite replicate_cons_app.
    replace (u ++ x :: replicate k c ++ [c]) with ((u ++ x :: replicate k c) ++ [c])
      by (by rewrite <- app_assoc).
    by rewrite rstrip_snoc.
Qed.

(** A string consists of [c] only, or has a last character other than
    [c], followed by [c]s. *)
Lemma all_or_tail s :
  s = replicate (length s) c \/
  exists u x k, x <> c /\ s = u ++ x :: replicate k c.
Proof.
  induction s as [|y s IH]; [by left|].
  destruct IH as [IH|(u & x & k & Hx & ->)].
  - destruct (decide (y = c)) as [->|Hy].
    + left. simpl. by rewrite <- IH.
    + right. exists [], y, (length s). split; [done|]. simpl. by rewrite <- IH.
  - right. by exists (y :: u), x, k.
Qed.

End str_lemmas.

Lemma split_nosep p : chr_sep ∉ p -> posixpath.split p = ([], p).
Proof.
  intros Hp. unfold posixpath.split, posixpath.sep.
  rewrite (rfind_notin _ _ Hp). done.
Qed.

Lemma split_sep a b :
  chr_sep ∉ b ->
  posixpath.split (a ++ chr_sep :: b) =
    (if bool_decide (a = replicate (length a) chr_sep) then a ++ [chr_sep]
     else PyStr.rstrip chr_sep a, b).
Proof.
  intros Hb. unfold posixpath.split, posixpath.sep.
  rewrite (rfind_last _ a b Hb).
  replace (Z.of_nat (length a) + 1) with (Z.of_nat (length (a ++ [chr_sep])))
    by (rewrite length_app; simpl; lia).
  replace (a ++ chr_sep :: b) with ((a ++ [chr_sep]) ++ b) by (by rewrite <- app_assoc).
  rewrite upto_length_app, from_length_app.
  rewrite (bool_decide_eq_false_2 (a ++ [chr_sep] = [])) by (by destruct a).
  simpl negb. rewrite andb_true_l.
  rewrite length_app. simpl length. rewrite Nat.add_1_r, replicate_S_end.
  destruct (decide (a = replicate (length a) chr_sep)) as [Ha|Ha].
  - rewrite (bool_decide_eq_true_2 _ Ha).
    rewrite bool_decide_eq_true_2 by (by rewrite <- Ha). done.
  - rewrite (bool_decide_eq_false_2 _ Ha).
    rewrite bool_decide_eq_false_2 by (intros ?%(inj (.++ [chr_sep])); done).
    simpl. by rewrite rstrip_snoc.
Qed.


Lemma splitext_app p : (posixpath.splitext p).1 ++ (posixpath.splitext p).2 = p.
Proof.
  unfold posixpath.splitext.
  destruct (_ && _); simpl; [apply upto_from | apply app_nil_r].
Qed.

Lemma startswith_sep_false b : chr_sep ∉ b -> PyStr.startswith b [chr_sep] = false.
Proof.
  intros Hb. apply bool_decide_eq_false_2. intros [k ->]. apply Hb. set_solver.
Qed.

Lemma endswith_snoc a x y : PyStr.endswith (a ++ [x]) [y] = bool_decide (x = y).
Proof.
  unfold PyStr.endswith. apply bool_decide_ext. split.
  - intros [k Hk]. apply app_inj_tail in Hk. tauto.
  - intros ->. by exists a.
Qed.

Lemma join_nosep a b :
  chr_sep ∉ b ->
  posixpath.join a b =
    if bool_decide (a = []) || PyStr.endswith a [chr_sep] then a ++ b
    else a ++ chr_sep :: b.
Proof.
  intros Hb. unfold posixpath.join, posixpath.sep.
  by rewrite (startswith_sep_false b Hb).
Qed.

Lemma augpath_default_join p :
  augpath posix p [] [] None None None false =
    Ok (posixpath.join (posixpath.split p).1 (posixpath.split p).2).
Proof.
  unfold augpath, augpath_breakup. cbn [os_split os_splitext os_join posix].
  destruct (posixpath.split p) as [d fname].
  pose proof (splitext_app fname) as H.
  destruct (posixpath.splitext fname) as [b e]. simpl in *. by rewrite H.
Qed.


Lemma split_tail_nosep p : chr_sep ∉ (posixpath.split p).2.
Proof.
  destruct (Z.leb_spec 0 (PyStr.rfind chr_sep p)) as [Hr|Hr].
  - destruct (rfind_split _ _ Hr) as (a & b & -> & Hb & _).
    by rewrite (split_sep a b Hb).
  - assert (chr_sep ∉ p) as Hp by (apply rfind_neg_notin; lia).
    by rewrite (split_nosep p Hp).
Qed.

Lemma split1_none c s : c ∉ s -> PyStr.split1 c s = [s].
Proof. intros Hs. unfold PyStr.split1. by rewrite (find_notin c s Hs). Qed.

Lemma split1_first c b r : c ∉ b -> PyStr.split1 c (b ++ c :: r) = [b; r].
Proof.
  intros Hb. unfold PyStr.split1. rewrite (find_first c b r Hb).
  destruct (Z.ltb_spec (Z.of_nat (length b)) 0); [lia|].
  rewrite upto_length_app.
  replace (Z.of_nat (length b) + 1) with (Z.of_nat (length (b ++ [c])))
    by (rewrite length_app; simpl; lia).
  replace (b ++ c :: r) with ((b ++ [c]) ++ r) by (by rewrite <- app_assoc).
  by rewrite from_length_app.
Qed.

(** The scan for a character other than a dot among the [n] characters
    from index [j]. *)
Lemma splitext_scan_spec p (j n : nat) q :
  drop j p = q -> (n <= length q)%nat ->
  posixpath.splitext_scan p (Z.of_nat j) n =
    negb (bool_decide (take n q = replicate n chr_dot)).
Proof.
  revert j q. induction n as [|n IH]; intros j q Hq Hn; simpl.
  - by destruct q.
  - destruct q as [|y rest]; simpl in Hn; [lia|].
    unfold PyStr.slice, PyStr.upto, PyStr.from.
    replace (Z.to_nat (Z.of_nat j + 1 - Z.of_nat j)) with 1%nat by lia.
    rewrite Nat2Z.id, Hq. simpl take.
    assert (drop (S j) p = rest) as Hq'.
    { replace (S j) with (j + 1)%nat by lia. by rewrite <- drop_drop, Hq. }
    destruct (decide (y = chr_dot)) as [->|Hy].
    + rewrite bool_decide_eq_false_2 by (by intros []).
      replace (Z.of_nat j + 1) with (Z.of_nat (S j)) by lia.
      rewrite (IH (S j) rest Hq') by lia.
      f_equal. apply bool_decide_ext. split; [by intros ->|by intros [= ->]].
    + rewrite bool_decide_eq_true_2 by congruence.
      rewrite bool_decide_eq_false_2 by congruence. done.
Qed.

Lemma splitext_nodot p : chr_dot ∉ p -> posixpath.splitext p = (p, []).
Proof.
  intros Hp. unfold posixpath.splitext.
  rewrite (rfind_notin chr_dot p Hp).
  pose proof (rfind_range posixpath.sep p).
  destruct (Z.ltb_spec (PyStr.rfind posixpath.sep p) (-1)); [lia|done].
Qed.

Lemma splitext_lastdot b e :
  chr_sep ∉ b -> chr_sep ∉ e -> chr_dot ∉ e ->
  posixpath.splitext (b ++ chr_dot :: e) =
    if bool_decide (b = replicate (length b) chr_dot)
    then (b ++ chr_dot :: e, []) else (b, chr_dot :: e).
Proof.
  intros Hb He Hd. unfold posixpath.splitext, posixpath.sep.
  rewrite (rfind_notin chr_sep)
    by (by intros [?|[?|?]%elem_of_cons]%elem_of_app).
  rewrite (rfind_last chr_dot b e Hd).
  destruct (Z.ltb_spec (-1) (Z.of_nat (length b))); [|lia]. simpl andb.
  replace (-1 + 1) with (Z.of_nat 0) by lia.
  replace (Z.to_nat (Z.of_nat (length b) - Z.of_nat 0)) with (length b) by lia.
  rewrite (splitext_scan_spec _ 0 (length b) (b ++ chr_dot :: e))
    by (rewrite ?length_app; done || lia).
  rewrite take_app_length.
  rewrite upto_length_app, from_length_app.
  by destruct (bool_decide _).
Qed.

Lemma breakup_first_dot p d b r :
  posixpath.split p = (d, b ++ chr_dot :: r) -> chr_dot ∉ b ->
  augpath_breakup posix p true = Ok (d, b, chr_dot :: r).
Proof.
  intros Hs Hb. unfold augpath_breakup. cbn [os_split posix]. rewrite Hs.
  by rewrite (split1_first chr_dot b r Hb).
Qed.

Lemma breakup_multidot_nodot p d fname :
  posixpath.split p = (d, fname) -> chr_dot ∉ fname ->
  augpath_breakup posix p true = Ok (d, fname, []).
Proof.
  intros Hs Hf. unfold augpath_breakup. cbn [os_split posix]. rewrite Hs.
  by rewrite (split1_none chr_dot fname Hf).
Qed.

Lemma breakup_last_dot p d b e :
  posixpath.split p = (d, b ++ chr_dot :: e) -> chr_dot ∉ e ->
  augpath_breakup posix p false =
    if bool_decide (b = replicate (length b) chr_dot)
    then Ok (d, b ++ chr_dot :: e, []) else Ok (d, b, chr_dot :: e).
Proof.
  intros Hs He. unfold augpath_breakup. cbn [os_split os_splitext posix].
  pose proof (split_tail_nosep p) as Hsep. rewrite Hs in *. simpl in Hsep.
  rewrite splitext_lastdot; [by destruct (bool_decide _)|..|done].
  - intros ?. apply Hsep. set_solver.
  - intros ?. apply Hsep. set_solver.
Qed.

Lemma breakup_nodot p d fname :
  posixpath.split p = (d, fname) -> chr_dot ∉ fname ->
  augpath_breakup posix p false = Ok (d, fname, []).
Proof.
  intros Hs Hf. unfold augpath_breakup. cbn [os_split os_splitext posix].
  by rewrite Hs, (splitext_nodot fname Hf).
Qed.

Lemma join_suffix a b : b `suffix_of` posixpath.join a b.
Proof.
  unfold posixpath.join. destruct (PyStr.startswith _ _); [done|].
  destruct (_ || _); [by apply suffix_app_r|].
  by exists (a ++ [posixpath.sep]); rewrite <- app_assoc.
Qed.

Lemma breakup_total P p multidot : exists t, augpath_breakup P p multidot = Ok t.
Proof.
  unfold augpath_breakup. destruct (os_split P p) as [d fname].
  destruct multidot.
  - unfold PyStr.split1. destruct (_ <? _); simpl; eauto.
  - destruct (os_splitext P fname). eauto.
Qed.


Section shrinkuser_lemmas.
Context (h : Host) (p home u : str).
Hypothesis Hu : userhome h None = Ok u.
Let q := os_normpath (host_path h) p.
Let sep := os_sep (host_path h).

Lemma shrinkuser_home : q = u -> shrinkuser h p home = Ok home.
Proof.
  intros Hq. unfold shrinkuser. rewrite Hu. simpl. fold q. rewrite Hq.
  unfold PyStr.startswith. rewrite bool_decide_eq_true_2 by done.
  by rewrite bool_decide_eq_true_2.
Qed.

Lemma shrinkuser_under k :
  q = u ++ sep :: k -> shrinkuser h p home = Ok (home ++ sep :: k).
Proof.
  intros Hq. unfold shrinkuser. rewrite Hu. simpl. fold q. rewrite Hq.
  unfold PyStr.startswith. rewrite bool_decide_eq_true_2 by (by eexists).
  rewrite bool_decide_eq_false_2 by (rewrite length_app; simpl; lia).
  unfold str_item. rewrite list_lookup_middle by done. simpl.
  fold sep. rewrite bool_decide_eq_true_2 by done.
  by rewrite from_length_app.
Qed.

Lemma shrinkuser_other :
  q <> u -> ~ (u ++ [sep]) `prefix_of` q -> shrinkuser h p home = Ok q.
Proof.
  intros Hne Hnp. unfold shrinkuser. rewrite Hu. simpl. fold q.
  unfold PyStr.startswith. case_bool_decide as Hpre; [|done].
  destruct Hpre as [k Hk]. destruct k as [|y k].
  { rewrite app_nil_r in Hk. done. }
  rewrite Hk.
  rewrite bool_decide_eq_false_2 by (rewrite length_app; simpl; lia).
  unfold str_item. rewrite list_lookup_middle by done. simpl. fold sep.
  case_bool_decide as Hy; [|done].
  exfalso. apply Hnp. exists k. rewrite Hk, Hy. by rewrite <- app_assoc.
Qed.

End shrinkuser_lemmas.


Lemma environ_item_cases os name :
  (exists v, environ_item os name = Ok v) \/
  (exists m, environ_item os name = Raise (KeyError m)).
Proof. unfold environ_item. destruct (_ !! _); eauto. Qed.








(** The last separator of a path is where it is. *)
Lemma last_sep_inj a b a' b' :
  chr_sep ∉ b -> chr_sep ∉ b' ->
  a ++ chr_sep :: b = a' ++ chr_sep :: b' -> a = a' /\ b = b'.
Proof.
  intros Hb Hb' Heq.
  assert (length a = length a') as Hl.
  { apply Nat2Z.inj.
    by rewrite <- (rfind_last chr_sep a b Hb), Heq, (rfind_last chr_sep a' b' Hb'). }
  apply app_inj_1 in Heq as [-> [= ->]]; done.
Qed.

Lemma not_all_sep u x k :
  x <> chr_sep ->
  u ++ x :: replicate k chr_sep
    <> replicate (length (u ++ x :: replicate k chr_sep)) chr_sep.
Proof.
  intros Hx Heq.
  assert (x ∈ replicate (length (u ++ x :: replicate k chr_sep)) chr_sep) as Hin.
  { rewrite <- Heq. set_solver. }
  apply elem_of_replicate in Hin. tauto.
Qed.

Lemma doubled_sep_nosep p : chr_sep ∉ p -> ~ doubled_sep_before_name p.
Proof. intros Hp (a & t & -> & _). apply Hp. set_solver. Qed.

Lemma doubled_sep_last a b :
  chr_sep ∉ b ->
  doubled_sep_before_name (a ++ chr_sep :: b) <->
  exists a', a = a' ++ [chr_sep] /\ a' <> replicate (length a') chr_sep.
Proof.
  intros Hb. split.
  - intros (a' & t & Heq & Ht & Ha').
    replace (a' ++ chr_sep :: chr_sep :: t) with ((a' ++ [chr_sep]) ++ chr_sep :: t)
      in Heq by (by rewrite <- app_assoc).
    apply last_sep_inj in Heq as [-> ->]; [|done..]. by exists a'.
  - intros (a' & -> & Ha'). exists a', b. by rewrite <- app_assoc.
Qed.

(** ** userhome *)

Lemma userhome_current_home h v :
  environ (host_os h) !! py "HOME" = Some v -> userhome_current h = Ok v.
Proof.
  intros Hv. unfold userhome_current, environ_item. rewrite Hv.
  by rewrite bool_decide_eq_true_2.
Qed.

Lemma userhome_current_posix h :
  environ (host_os h) !! py "HOME" = None -> is_win32 h = false ->
  userhome_current h =
    match pwd_by_uid (host_os h) !! getuid (host_os h) with
    | Some pwent => Ok (pw_dir pwent)
    | None => Raise (KeyError (py "getpwuid(): uid not found: "
                               ++ py (pretty (getuid (host_os h)))))
    end.
Proof.
  intros Hv Hw. unfold userhome_current, is_win32 in *. rewrite Hv, Hw.
  unset_vars. unfold getpwuid. by destruct (pwd_by_uid _ !! _).
Qed.

Lemma userhome_current_win32_none h :
  is_win32 h = true ->
  environ (host_os h) !! py "HOME" = None ->
  environ (host_os h) !! py "USERPROFILE" = None ->
  environ (host_os h) !! py "HOMEPATH" = None ->
  userhome_current h =
    Raise (OSError (py "Cannot determine the user's home directory")).
Proof.
  intros Hw H1 H2 H3. unfold userhome_current, is_win32 in *.
  rewrite H1, H2, H3, Hw.
  by rewrite bool_decide_eq_false_2 by apply is_Some_None.
Qed.



(** A user name with a NUL character: the [ValueError] of the lookup is
    not a [KeyError] and is not translated. *)
Lemma userhome_named_posix_nul h u :
  is_win32 h = false -> chr_nul ∈ u ->
  userhome h (Some u) = Raise (ValueError (py "embedded null byte")).
Proof.
  intros Hw Hn. unfold userhome, is_win32, getpwnam in *. rewrite Hw.
  by rewrite (bool_decide_eq_true_2 _ Hn).
Qed.



Lemma split_join_tail d f :
  chr_sep ∉ f -> (posixpath.split (posixpath.join d f)).2 = f.
Proof.
  intros Hf. rewrite (join_nosep d f Hf).
  destruct d as [|x d _] using rev_ind.
  - rewrite (bool_decide_eq_true_2 ([] = [])) by done.
    by rewrite orb_true_l, app_nil_l, (split_nosep f Hf).
  - rewrite (bool_decide_eq_false_2 (d ++ [x] = [])) by (by destruct d).
    rewrite endswith_snoc, orb_false_l. case_bool_decide as Hx.
    + subst x. rewrite <- app_assoc. cbn [app]. by rewrite (split_sep d f Hf).
    + by rewrite (split_sep (d ++ [x]) f Hf).
Qed.

Lemma breakup_base_nosep p d b x :
  augpath_breakup posix p false = Ok (d, b, x) -> chr_sep ∉ b.
Proof.
  unfold augpath_breakup. cbn [os_split os_splitext posix].
  pose proof (split_tail_nosep p) as Hs.
  destruct (posixpath.split p) as [d' fname]. simpl in Hs.
  pose proof (splitext_app fname) as Ha.
  destruct (posixpath.splitext fname) as [b' x']. simpl in Ha.
  intros [= -> -> ->]. subst fname. intros ?. apply Hs. set_solver.
Qed.

(** * The claims of the specification *)

(** ** augpath *)

(** C1, as stated, fails: on a POSIX host, with no override,
    [augpath('a//b')] is ['a/b']. *)
Lemma augpath_identity_counterexample :
  augpath posix (py "a//b") [] [] None None None false <> Ok (py "a//b").
Proof. vm_compute. discriminate. Qed.

(** C1 (amended). On a POSIX host, with no override, [augpath] returns
    the path itself exactly when the last component of the path is not preceded by two
    or more separators that follow a character other than a separator:
    such a run of separators is joined again as a single one. *)
Theorem augpath_identity p :
  augpath posix p [] [] None None None false = Ok p <->
  ~ doubled_sep_before_name p.
Proof.
  rewrite augpath_default_join.
  destruct (Z.leb_spec 0 (PyStr.rfind chr_sep p)) as [Hr|Hr].
  - (* the path has a last separator *)
    destruct (rfind_split _ _ Hr) as (a & b & -> & Hb & _).
    rewrite (split_sep a b Hb), (doubled_sep_last a b Hb).
    destruct (all_or_tail chr_sep a) as [Ha|(u & x & k & Hx & ->)].
    + (* only separators before it: the head is kept *)
      rewrite (bool_decide_eq_true_2 _ Ha). cbn [fst snd].
      rewrite (join_nosep _ _ Hb), endswith_snoc.
      rewrite (bool_decide_eq_true_2 (chr_sep = chr_sep)) by done.
      rewrite orb_true_r, <- app_assoc. split; [|done].
      intros _ (a' & -> & Ha'). apply Ha'.
      rewrite length_app, Nat.add_1_r, replicate_S_end in Ha.
      by apply (inj (.++ [chr_sep])) in Ha.
    + (* the head is stripped back to [u ++ [x]] and joined with one separator *)
      rewrite (bool_decide_eq_false_2 _ (not_all_sep u x k Hx)). cbn [fst snd].
      rewrite (rstrip_tail _ _ _ _ Hx), (join_nosep _ _ Hb), endswith_snoc.
      rewrite (bool_decide_eq_false_2 (u ++ [x] = [])) by (by destruct u).
      rewrite (bool_decide_eq_false_2 _ Hx). cbn [orb].
      destruct k as [|k]; cbn [replicate].
      * rewrite <- !app_assoc. split; [|done].
        intros _ (a' & Heq & _). apply app_inj_tail in Heq. tauto.
      * split.
        -- intros [= Heq]. apply (f_equal length) in Heq.
           repeat (rewrite length_app in Heq || simpl in Heq). lia.
        -- intros Hnd. exfalso. apply Hnd.
           exists (u ++ x :: replicate k chr_sep). split.
           ++ by rewrite replicate_cons_app, app_comm_cons, app_assoc.
           ++ by apply not_all_sep.
  - (* no separator: the directory is empty *)
    assert (chr_sep ∉ p) as Hp by (apply rfind_neg_notin; lia).
    rewrite (split_nosep p Hp). cbn [fst snd].
    rewrite (join_nosep _ _ Hp). split; [intros _|done].
    by apply doubled_sep_nosep.
Qed.

(** C2, as stated, fails with [multidot] false at ['.bashrc']: a split at
    the last dot would give the base [''] and the extension ['.bashrc'];
    the base is the whole name and there is no extension. *)
Lemma augpath_last_dot_counterexample :
  augpath_breakup posix (py ".bashrc") false = Ok ([], py ".bashrc", []) /\
  augpath_breakup posix (py ".bashrc") false <> Ok ([], [], py ".bashrc").
Proof. split; [reflexivity | vm_compute; discriminate]. Qed.

(** C2 (amended). With [multidot] true the file name is split at its
    first dot, all from that dot on being the extension. With [multidot]
    false it is split at its last dot when a character other than a dot
    comes before that dot, and has no extension when only dots do. The two
    examples of the claim hold. *)
Theorem augpath_extension_split :
  (forall p d b r,
     posixpath.split p = (d, b ++ chr_dot :: r) -> chr_dot ∉ b ->
     augpath_breakup posix p true = Ok (d, b, chr_dot :: r)) /\
  (forall p d b e,
     posixpath.split p = (d, b ++ chr_dot :: e) -> chr_dot ∉ e ->
     b <> replicate (length b) chr_dot ->
     augpath_breakup posix p false = Ok (d, b, chr_dot :: e)) /\
  (forall p d b e,
     posixpath.split p = (d, b ++ chr_dot :: e) -> chr_dot ∉ e ->
     b = replicate (length b) chr_dot ->
     augpath_breakup posix p false = Ok (d, b ++ chr_dot :: e, [])) /\
  augpath posix (py "foo.tar.gz") [] [] (Some (py ".zip")) None None true
    = Ok (py "foo.zip") /\
  augpath posix (py "foo.tar.gz") [] [] (Some (py ".zip")) None None false
    = Ok (py "foo.tar.zip").
Proof.
  split; [|split; [|split; [|split; reflexivity]]].
  - intros p d b r Hs Hb. by apply breakup_first_dot.
  - intros p d b e Hs He Hb. rewrite (breakup_last_dot p d b e Hs He).
    by rewrite bool_decide_eq_false_2.
  - intros p d b e Hs He Hb. rewrite (breakup_last_dot p d b e Hs He).
    by rewrite bool_decide_eq_true_2.
Qed.

Lemma augpath_extension_split_witness :
  augpath_breakup posix (py "dir/foo.tar.gz") true
    = Ok (py "dir", py "foo", py ".tar.gz") /\
  augpath_breakup posix (py "dir/foo.tar.gz") false
    = Ok (py "dir", py "foo.tar", py ".gz") /\
  augpath_breakup posix (py "dir/..rc") false = Ok (py "dir", py "..rc", []).
Proof.
  destruct augpath_extension_split as (Hfirst & Hlast & Hdots & _).
  split; [|split].
  - apply (Hfirst (py "dir/foo.tar.gz") (py "dir") (py "foo") (py "tar.gz")).
    + reflexivity.
    + by_decide.
  - apply (Hlast (py "dir/foo.tar.gz") (py "dir") (py "foo.tar") (py "gz")).
    + reflexivity.
    + by_decide.
    + vm_compute. discriminate.
  - apply (Hdots (py "dir/..rc") (py "dir") (py ".") (py "rc")).
    + reflexivity.
    + by_decide.
    + reflexivity.
Defined.

(** C3, as stated, fails with [multidot] true: ['.bashrc'] is split at
    its first dot, into the base [''] and the extension ['.bashrc']. *)
Lemma augpath_leading_dot_counterexample :
  augpath_breakup posix (py ".bashrc") true = Ok ([], [], py ".bashrc") /\
  augpath_breakup posix (py ".bashrc") true <> Ok ([], py ".bashrc", []).
Proof. split; [reflexivity | vm_compute; discriminate]. Qed.

(** C3 (amended). A file name made of a leading dot and a rest without a
    dot has, with [multidot] false, no extension and itself as the base,
    as the host's [splitext] has it; with [multidot] true its first dot
    still starts the extension: the base is empty and the whole name is
    the extension. *)
Theorem augpath_leading_dot (n : str) :
  chr_dot ∉ n -> chr_sep ∉ n ->
  posixpath.splitext (chr_dot :: n) = (chr_dot :: n, []) /\
  augpath_breakup posix (chr_dot :: n) false = Ok ([], chr_dot :: n, []) /\
  augpath_breakup posix (chr_dot :: n) true = Ok ([], [], chr_dot :: n).
Proof.
  intros Hdot Hsep.
  assert (posixpath.split (chr_dot :: n) = ([], [] ++ chr_dot :: n)) as Hs.
  { apply split_nosep. by apply not_elem_of_cons. }
  split; [|split].
  - change (chr_dot :: n) with ([] ++ chr_dot :: n).
    by rewrite (splitext_lastdot [] n) by (done || apply not_elem_of_nil).
  - by rewrite (breakup_last_dot _ _ [] n Hs Hdot).
  - apply (breakup_first_dot _ _ [] n Hs). apply not_elem_of_nil.
Qed.

Lemma augpath_leading_dot_witness :
  posixpath.splitext (py ".bashrc") = (py ".bashrc", []) /\
  augpath_breakup posix (py ".bashrc") false = Ok ([], py ".bashrc", []) /\
  augpath_breakup posix (py ".bashrc") true = Ok ([], [], py ".bashrc").
Proof. apply (augpath_leading_dot (py "bashrc")); by_decide. Defined.

(** C9, as stated, fails for an [ext] with a separator: on a POSIX host
    [augpath('foo.bar', ext='a/x')] is ['fooa/x'], whose file name part
    is ['x'] and does not end with ['a/x']. *)
Lemma augpath_ext_counterexample :
  augpath posix (py "foo.bar") [] [] (Some (py "a/x")) None None false
    = Ok (py "fooa/x") /\
  (posixpath.split (py "fooa/x")).2 = py "x" /\
  ~ py "a/x" `suffix_of` py "x".
Proof. split; [reflexivity|]. split; [reflexivity|]. by_decide. Qed.

(** C9 (amended). On a POSIX host an [ext] override is the new extension
    as it is, no dot added: for every path [p] and string [e] the new
    file name is the base of [p] followed by [e], and the returned path
    ends with it, hence with [e]; when [e] has no separator it is the
    file name part of the returned path, which so ends with exactly [e];
    and [augpath('foo.bar', ext='baz')] is ['foobaz']. *)
Theorem augpath_ext_verbatim :
  (forall p e, exists d b x r,
     augpath_breakup posix p false = Ok (d, b, x) /\
     augpath posix p [] [] (Some e) None None false = Ok r /\
     r = posixpath.join d (b ++ e) /\
     (b ++ e) `suffix_of` r /\
     e `suffix_of` r /\
     (chr_sep ∉ e ->
      (posixpath.split r).2 = b ++ e /\ e `suffix_of` (posixpath.split r).2)) /\
  augpath posix (py "foo.bar") [] [] (Some (py "baz")) None None false
    = Ok (py "foobaz").
Proof.
  split; [|reflexivity]. intros p e.
  destruct (breakup_total posix p false) as [[[d b] x] Hb].
  exists d, b, x, (posixpath.join d (b ++ e)).
  split; [done|]. split; [|split; [done|split; [|split]]].
  - unfold augpath. rewrite Hb. reflexivity.
  - apply join_suffix.
  - etrans; [apply suffix_app_r; reflexivity|apply join_suffix].
  - intros He.
    assert ((posixpath.split (posixpath.join d (b ++ e))).2 = b ++ e) as ->.
    { apply split_join_tail.
      pose proof (breakup_base_nosep p d b x Hb).
      by intros [?|?]%elem_of_app. }
    split; [done|]. by apply suffix_app_r.
Qed.

Lemma augpath_ext_verbatim_witness :
  exists d b x r,
    augpath_breakup posix (py "dir/foo.bar") false = Ok (d, b, x) /\
    augpath posix (py "dir/foo.bar") [] [] (Some (py "baz")) None None false
      = Ok r /\
    r = posixpath.join d (b ++ py "baz") /\
    (b ++ py "baz") `suffix_of` r /\
    py "baz" `suffix_of` r /\
    (posixpath.split r).2 = b ++ py "baz" /\
    py "baz" `suffix_of` (posixpath.split r).2.
Proof.
  destruct (proj1 augpath_ext_verbatim (py "dir/foo.bar") (py "baz"))
    as (d & b & x & r & H1 & H2 & H3 & H4 & H5 & H6).
  exists d, b, x, r. repeat split; try assumption; apply H6; by_decide.
Defined.

(** ** shrinkuser *)

(** C4. With [u] the result of [userhome()] and [q] the normalized path:
    [shrinkuser] returns [home] when [q] is [u]; it returns [home]
    followed by what follows [u] in [q], separator included, when [q]
    starts with [u] and a separator; otherwise it returns [q] unchanged.
    So ['/home/user1'] is not shrunk when the home directory is
    ['/home/user'], whatever the marker. *)
Theorem shrinkuser_cases :
  (forall (h : Host) (p home u : str),
     userhome h None = Ok u ->
     let q := os_normpath (host_path h) p in
     (q = u -> shrinkuser h p home = Ok home) /\
     ((u ++ [os_sep (host_path h)]) `prefix_of` q ->
      shrinkuser h p home = Ok (home ++ drop (length u) q)) /\
     (q <> u -> ~ (u ++ [os_sep (host_path h)]) `prefix_of` q ->
      shrinkuser h p home = Ok q)) /\
  (forall home : str,
     userhome (posix_host os_user) None = Ok (py "/home/user") /\
     shrinkuser (posix_host os_user) (py "/home/user1") home
       = Ok (py "/home/user1")).
Proof.
  split.
  - intros h p home u Hu q. split; [|split].
    + by apply shrinkuser_home.
    + intros [k Hk]. rewrite <- app_assoc in Hk.
      rewrite (shrinkuser_under h p home u Hu k Hk). fold q. rewrite Hk.
      by rewrite drop_app_length.
    + by apply shrinkuser_other.
  - intros home. split; [reflexivity|].
    rewrite (shrinkuser_other (posix_host os_user) (py "/home/user1") home
               (py "/home/user"));
      [reflexivity | reflexivity | vm_compute; discriminate |].
    intros [k Hk]. vm_compute in Hk. discriminate.
Qed.

Lemma shrinkuser_cases_witness :
  shrinkuser (posix_host os_user) (py "/home//user/") (py "~") = Ok (py "~") /\
  shrinkuser (posix_host os_user) (py "/home/user/./1") (py "$HOME")
    = Ok (py "$HOME/1") /\
  shrinkuser (posix_host os_user) (py "/home/user1") (py "~")
    = Ok (py "/home/user1").
Proof.
  pose proof (fun p home =>
    proj1 shrinkuser_cases (posix_host os_user) p home (py "/home/user")
      eq_refl) as H.
  split; [|split].
  - apply (proj1 (H (py "/home//user/") (py "~"))). reflexivity.
  - apply (proj1 (proj2 (H (py "/home/user/./1") (py "$HOME")))).
    by exists (py "1").
  - apply (proj2 (proj2 (H (py "/home/user1") (py "~")))).
    + vm_compute. discriminate.
    + intros [k Hk]. vm_compute in Hk. discriminate.
Defined.

(** C10. For a path that is not under the home directory (its normalized
    form is not the home directory and does not start with the home
    directory and a separator) [shrinkuser] returns the normalized path,
    not the path as given: [shrinkuser('/tmp//x/./y')] is ['/tmp/x/y']. *)
Theorem shrinkuser_normalizes :
  (forall (h : Host) (p home u : str),
     userhome h None = Ok u ->
     os_normpath (host_path h) p <> u ->
     ~ (u ++ [os_sep (host_path h)]) `prefix_of` os_normpath (host_path h) p ->
     shrinkuser h p home = Ok (os_normpath (host_path h) p)) /\
  shrinkuser (posix_host os_user) (py "/tmp//x/./y") (py "~")
    = Ok (py "/tmp/x/y") /\
  shrinkuser (posix_host os_user) (py "/tmp//x/./y") (py "~")
    <> Ok (py "/tmp//x/./y").
Proof.
  split; [|split].
  - intros h p home u Hu Hne Hnp. by apply (shrinkuser_other h p home u).
  - reflexivity.
  - vm_compute. discriminate.
Qed.

Lemma shrinkuser_normalizes_witness :
  shrinkuser (posix_host os_user) (py "/etc/../var//log") (py "~")
    = Ok (posixpath.normpath (py "/etc/../var//log")) /\
  posixpath.normpath (py "/etc/../var//log") = py "/var/log".
Proof.
  split; [|reflexivity].
  apply (proj1 shrinkuser_normalizes (posix_host os_user)
           (py "/etc/../var//log") (py "~") (py "/home/user")).
  - reflexivity.
  - vm_compute. discriminate.
  - intros [k Hk]. vm_compute in Hk. discriminate.
Defined.

(** ** userhome *)

(** C5, at the input where the code departs from it: on a POSIX host
    with no [HOME] and no account record for the user id, [userhome()]
    lets the [KeyError] of [pwd.getpwuid] through; it is not the
    [OSError] that the win32 branch raises in the same situation. *)
Theorem userhome_posix_uid_unknown :
  userhome (posix_host os_bare) None
    = Raise (KeyError (py "getpwuid(): uid not found: 1000")) /\
  ~ is_ResolutionError (KeyError (py "getpwuid(): uid not found: 1000")) /\
  forall ntpath : OsPath,
    userhome (win32_host ntpath os_bare) None
      = Raise (OSError (py "Cannot determine the user's home directory")).
Proof.
  split; [reflexivity|]. split; [by intros []|]. intros ntpath.
  by apply userhome_current_win32_none.
Qed.




(** C7, as stated, fails: with [HOME] set to the empty string
    [userhome()] returns the empty string and does not fall through to
    the account database, which records ['/home/user']. *)
Lemma userhome_empty_home_counterexample :
  userhome (posix_host os_empty_home) None = Ok [] /\
  getpwuid os_empty_home (getuid os_empty_home) = Ok pw_user /\
  userhome (posix_host os_empty_home) None <> Ok (pw_dir pw_user).
Proof. split; [reflexivity|]. split; [reflexivity|]. vm_compute. discriminate. Qed.

(** C7 (amended). For the current user [userhome] returns the value of
    [HOME] whenever [HOME] is set, also when the value is empty, on
    every host; nothing else is consulted then. *)
Theorem userhome_uses_home (h : Host) (v : str) :
  environ (host_os h) !! py "HOME" = Some v -> userhome h None = Ok v.
Proof. apply userhome_current_home. Qed.

Lemma userhome_uses_home_witness :
  userhome (posix_host os_empty_home) None = Ok [] /\
  userhome (win32_host posix os_user) None = Ok (py "/home/user").
Proof.
  split.
  - apply (userhome_uses_home (posix_host os_empty_home) []). reflexivity.
  - apply (userhome_uses_home (win32_host posix os_user) (py "/home/user")).
    reflexivity.
Defined.

(** ** Totality *)




(** * Further properties of the code *)

(** ** augpath: recombination and round trips *)

Lemma find_split c (s : str) :
  0 <= PyStr.find c s ->
  exists a b, s = a ++ c :: b /\ (c ∉ a) /\ PyStr.find c s = Z.of_nat (length a).
Proof.
  induction s as [|x s IH]; simpl; [lia|].
  destruct (decide (x = c)) as [->|Hx].
  - intros _. exists [], s. repeat split. apply not_elem_of_nil.
  - pose proof (find_range c s).
    destruct (Z.ltb_spec (PyStr.find c s) 0) as [Hf|Hf]; [lia|]. intros _.
    destruct (IH Hf) as (a & b & -> & Ha & Hlen).
    exists (x :: a), b. repeat split.
    + apply not_elem_of_cons. split; [congruence|done].
    + rewrite Hlen. simpl length. lia.
Qed.

Lemma find_neg_notin c (s : str) : PyStr.find c s < 0 -> c ∉ s.
Proof.
  induction s as [|x s IH]; simpl; [intros _; apply not_elem_of_nil|].
  destruct (decide (x = c)); [lia|].
  destruct (Z.ltb_spec (PyStr.find c s) 0);
    [|pose proof (find_range c s); lia].
  intros _. apply not_elem_of_cons. split; [done|]. by apply IH.
Qed.

(** Whatever [multidot] is, base and extension put together are the last
    component of the path. *)
Lemma breakup_recombine p multidot :
  exists b e,
    augpath_breakup posix p multidot = Ok ((posixpath.split p).1, b, e) /\
    b ++ e = (posixpath.split p).2.
Proof.
  unfold augpath_breakup. cbn [os_split os_splitext posix].
  destruct (posixpath.split p) as [d fname]. cbn [fst snd].
  destruct multidot.
  - destruct (Z.leb_spec 0 (PyStr.find chr_dot fname)) as [Hf|Hf].
    + destruct (find_split _ _ Hf) as (b & r & -> & Hb & _).
      rewrite (split1_first chr_dot b r Hb). by exists b, (chr_dot :: r).
    + rewrite split1_none by (by apply find_neg_notin).
      exists fname, []. by rewrite app_nil_r.
  - pose proof (splitext_app fname) as H.
    destruct (posixpath.splitext fname) as [b e]. by exists b, e.
Qed.

Lemma split_head_split p : split_head (posixpath.split p).1.
Proof.
  destruct (Z.leb_spec 0 (PyStr.rfind chr_sep p)) as [Hr|Hr].
  - destruct (rfind_split _ _ Hr) as (a & b & -> & Hb & _).
    rewrite (split_sep a b Hb). cbn [fst].
    destruct (all_or_tail chr_sep a) as [Ha|(u & x & k & Hx & ->)].
    + rewrite (bool_decide_eq_true_2 _ Ha). left.
      rewrite length_app, Nat.add_1_r, replicate_S_end. by rewrite <- Ha.
    + rewrite (bool_decide_eq_false_2 _ (not_all_sep u x k Hx)).
      rewrite (rstrip_tail _ _ _ _ Hx). right. by exists u, x.
  - assert (chr_sep ∉ p) as Hp by (apply rfind_neg_notin; lia).
    rewrite (split_nosep p Hp). by left.
Qed.

Lemma split_join d f :
  split_head d -> chr_sep ∉ f -> posixpath.split (posixpath.join d f) = (d, f).
Proof.
  intros Hd Hf. rewrite (join_nosep d f Hf).
  destruct Hd as [Hd|(u & x & -> & Hx)].
  - destruct (length d) as [|n] eqn:Hn.
    + simpl in Hd. subst d. rewrite (bool_decide_eq_true_2 ([] = [])) by done.
      by rewrite orb_true_l, app_nil_l, (split_nosep f Hf).
    + rewrite replicate_S_end in Hd. rewrite Hd.
      rewrite (bool_decide_eq_false_2 (_ ++ [chr_sep] = []))
        by (by destruct (replicate n chr_sep)).
      rewrite endswith_snoc, (bool_decide_eq_true_2 (chr_sep = chr_sep)) by done.
      rewrite orb_true_r, <- app_assoc. cbn [app].
      rewrite (split_sep _ f Hf).
      by rewrite length_replicate, (bool_decide_eq_true_2 (replicate n chr_sep = _)).
  - rewrite (bool_decide_eq_false_2 (u ++ [x] = [])) by (by destruct u).
    rewrite endswith_snoc, (bool_decide_eq_false_2 _ Hx). cbn [orb].
    rewrite (split_sep _ f Hf).
    rewrite bool_decide_eq_false_2.
    + by rewrite (rstrip_keep _ _ _ Hx).
    + intros Heq. assert (x ∈ replicate (length (u ++ [x])) chr_sep) as Hin
        by (rewrite <- Heq; set_solver).
      apply elem_of_replicate in Hin. tauto.
Qed.

Lemma breakup_nosep p multidot d b e :
  augpath_breakup posix p multidot = Ok (d, b, e) ->
  d = (posixpath.split p).1 /\ (chr_sep ∉ b) /\ (chr_sep ∉ e).
Proof.
  destruct (breakup_recombine p multidot) as (b' & e' & -> & Hbe).
  intros [= <- <- <-]. pose proof (split_tail_nosep p) as Hs.
  rewrite <- Hbe in Hs. apply not_elem_of_app in Hs. tauto.
Qed.

Lemma augpath_no_suffix p prefix dpath multidot :
  augpath posix p [] prefix None None dpath multidot
    = Ok (posixpath.join (default (posixpath.split p).1 dpath)
            (prefix ++ (posixpath.split p).2)).
Proof.
  unfold augpath.
  destruct (breakup_recombine p multidot) as (b & e & -> & Hbe).
  cbn [mbind result_bind default os_join posix]. by rewrite app_nil_l, Hbe.
Qed.

(** X1. With no suffix and no [ext] or [base] override the last component
    of the path is kept whole, whatever [multidot] is: the result is the
    directory (or its override) joined with the prefix and that
    component; with the empty string as [dpath] and no prefix it is that
    component alone. *)
Theorem augpath_keeps_name (p prefix : str) (dpath : option str)
    (multidot : bool) :
  augpath posix p [] prefix None None dpath multidot
    = Ok (posixpath.join (default (posixpath.split p).1 dpath)
            (prefix ++ (posixpath.split p).2)) /\
  augpath posix p [] prefix None None dpath true
    = augpath posix p [] prefix None None dpath false /\
  augpath posix p [] [] None None (Some []) multidot
    = Ok (posixpath.split p).2.
Proof.
  split; [apply augpath_no_suffix|]. split; [by rewrite !augpath_no_suffix|].
  rewrite augpath_no_suffix. cbn [default app]. unfold posixpath.join.
  by destruct (PyStr.startswith _ _).
Qed.

(** X2. With no override at all [augpath] is idempotent: applied to its
    own result it returns it. *)
Theorem augpath_idempotent (p : str) (multidot : bool) :
  exists r,
    augpath posix p [] [] None None None multidot = Ok r /\
    augpath posix r [] [] None None None multidot = Ok r.
Proof.
  exists (posixpath.join (posixpath.split p).1 (posixpath.split p).2).
  split; [apply (augpath_no_suffix p [] None multidot)|].
  rewrite (augpath_no_suffix _ [] None multidot). cbn [default app].
  by rewrite (split_join _ _ (split_head_split p) (split_tail_nosep p)).
Qed.

(** X3. When prefix, suffix and the [ext] and [base] overrides have no
    separator and the directory is not overridden, the result splits
    into the directory of the path and the new file name. *)
Theorem augpath_result_split (p suffix prefix : str) (ext base : option str)
    (multidot : bool) :
  chr_sep ∉ prefix -> chr_sep ∉ suffix ->
  (forall e, ext = Some e -> chr_sep ∉ e) ->
  (forall b, base = Some b -> chr_sep ∉ b) ->
  exists d b e r,
    augpath_breakup posix p multidot = Ok (d, b, e) /\
    augpath posix p suffix prefix ext base None multidot = Ok r /\
    posixpath.split r = (d, prefix ++ default b base ++ suffix ++ default e ext) /\
    posixpath.dirname r = posixpath.dirname p.
Proof.
  intros Hp Hs He Hb.
  destruct (breakup_recombine p multidot) as (b & e & Hbr & Hbe).
  destruct (breakup_nosep p multidot _ b e Hbr) as (_ & Hb' & He').
  exists (posixpath.split p).1, b, e,
    (posixpath.join (posixpath.split p).1
       (prefix ++ default b base ++ suffix ++ default e ext)).
  split; [done|]. split.
  { unfold augpath. rewrite Hbr. reflexivity. }
  assert (chr_sep ∉ prefix ++ default b base ++ suffix ++ default e ext) as Hf.
  { rewrite !not_elem_of_app. repeat split; try done.
    - destruct base; [by apply Hb|done].
    - destruct ext; [by apply He|done]. }
  rewrite (split_join _ _ (split_head_split p) Hf). split; [done|].
  unfold posixpath.dirname.
  by rewrite (split_join _ _ (split_head_split p) Hf).
Qed.

Lemma augpath_result_split_witness :
  exists d b e r,
    augpath_breakup posix (py "a//b/foo.tar.gz") true = Ok (d, b, e) /\
    augpath posix (py "a//b/foo.tar.gz") (py "_v2") (py "x-")
      (Some (py ".zip")) None None true = Ok r /\
    posixpath.split r = (d, py "x-" ++ b ++ py "_v2" ++ py ".zip") /\
    posixpath.dirname r = posixpath.dirname (py "a//b/foo.tar.gz").
Proof.
  apply (augpath_result_split (py "a//b/foo.tar.gz") (py "_v2") (py "x-")
           (Some (py ".zip")) None true).
  - by_decide.
  - by_decide.
  - intros e [= <-]. by_decide.
  - intros b [=].
Defined.

(** X4. A new file name that starts with a separator replaces the whole
    path: the directory, also one given as [dpath], is dropped. *)
Theorem augpath_absolute_name (p suffix prefix : str) (ext base dpath : option str)
    (multidot : bool) :
  exists d b e,
    augpath_breakup posix p multidot = Ok (d, b, e) /\
    forall rest,
      prefix ++ default b base ++ suffix ++ default e ext = chr_sep :: rest ->
      augpath posix p suffix prefix ext base dpath multidot
        = Ok (chr_sep :: rest).
Proof.
  destruct (breakup_recombine p multidot) as (b & e & Hbr & _).
  exists (posixpath.split p).1, b, e. split; [done|]. intros rest Hrest.
  unfold augpath. rewrite Hbr. cbn [mbind result_bind os_join posix].
  rewrite Hrest. unfold posixpath.join, PyStr.startswith.
  by rewrite bool_decide_eq_true_2 by (by exists rest).
Qed.

Lemma augpath_absolute_name_witness :
  augpath posix (py "dir/foo.bar") [] (py "/tmp/") None None (Some (py "other"))
    false = Ok (py "/tmp/foo.bar").
Proof.
  destruct (augpath_absolute_name (py "dir/foo.bar") [] (py "/tmp/") None None
              (Some (py "other")) false) as (d & b & e & Hbr & H).
  vm_compute in Hbr. injection Hbr as <- <- <-.
  apply (H (py "tmp/foo.bar")). reflexivity.
Defined.

(** X5. An extension set by an override is the extension found again in
    the result, and a second override starts from the same base. *)
Theorem augpath_ext_roundtrip (p d b x w : str) :
  augpath_breakup posix p false = Ok (d, b, x) ->
  b <> replicate (length b) chr_dot ->
  chr_dot ∉ w -> chr_sep ∉ w ->
  exists r,
    augpath posix p [] [] (Some (chr_dot :: w)) None None false = Ok r /\
    augpath_breakup posix r false = Ok (d, b, chr_dot :: w) /\
    forall e2, augpath posix r [] [] (Some e2) None None false
               = augpath posix p [] [] (Some e2) None None false.
Proof.
  intros Hbr Hb Hdot Hsep.
  destruct (breakup_nosep p false d b x Hbr) as (Hd & Hbs & _).
  exists (posixpath.join d (b ++ chr_dot :: w)).
  assert (augpath_breakup posix (posixpath.join d (b ++ chr_dot :: w)) false
          = Ok (d, b, chr_dot :: w)) as Hr.
  { assert (posixpath.split (posixpath.join d (b ++ chr_dot :: w))
            = (d, b ++ chr_dot :: w)) as Hs.
    { apply split_join; [subst d; apply split_head_split|].
      by intros [?|[?|?]%elem_of_cons]%elem_of_app. }
    rewrite (breakup_last_dot _ _ _ _ Hs Hdot).
    by rewrite bool_decide_eq_false_2. }
  split; [|split; [done|]].
  - unfold augpath. rewrite Hbr. reflexivity.
  - intros e2. unfold augpath. by rewrite Hbr, Hr.
Qed.

Lemma augpath_ext_roundtrip_witness :
  exists r,
    augpath posix (py "dir/foo.tar.gz") [] [] (Some (py ".zip")) None None false
      = Ok r /\
    augpath_breakup posix r false = Ok (py "dir", py "foo.tar", py ".zip") /\
    forall e2, augpath posix r [] [] (Some e2) None None false
               = augpath posix (py "dir/foo.tar.gz") [] [] (Some e2) None None false.
Proof.
  apply (augpath_ext_roundtrip (py "dir/foo.tar.gz") (py "dir") (py "foo.tar")
           (py ".gz") (py "zip")).
  - reflexivity.
  - vm_compute. discriminate.
  - by_decide.
  - by_decide.
Defined.

Lemma breakup_multidot_base p d b e :
  augpath_breakup posix p true = Ok (d, b, e) -> chr_dot ∉ b.
Proof.
  unfold augpath_breakup. cbn [os_split posix].
  destruct (posixpath.split p) as [d' fname].
  destruct (Z.leb_spec 0 (PyStr.find chr_dot fname)) as [Hf|Hf].
  - destruct (find_split _ _ Hf) as (b' & r & -> & Hb & _).
    rewrite (split1_first chr_dot b' r Hb). by intros [= _ <- _].
  - rewrite split1_none by (by apply find_neg_notin). intros [= _ <- _].
    by apply find_neg_notin.
Qed.

(** X6. With [multidot] true the round trip needs nothing of the path: an
    extension set by an override, dots inside it or not, is the
    extension found again in the result, with the same base. *)
Theorem augpath_multidot_roundtrip (p w : str) :
  chr_sep ∉ w ->
  exists d b x r,
    augpath_breakup posix p true = Ok (d, b, x) /\
    augpath posix p [] [] (Some (chr_dot :: w)) None None true = Ok r /\
    augpath_breakup posix r true = Ok (d, b, chr_dot :: w).
Proof.
  intros Hw.
  destruct (breakup_recombine p true) as (b & x & Hbr & _).
  destruct (breakup_nosep p true _ b x Hbr) as (_ & Hbs & _).
  exists (posixpath.split p).1, b, x,
    (posixpath.join (posixpath.split p).1 (b ++ chr_dot :: w)).
  split; [done|]. split.
  - unfold augpath. rewrite Hbr. reflexivity.
  - apply breakup_first_dot;
      [|by apply (breakup_multidot_base p (posixpath.split p).1 b x)].
    apply split_join; [apply split_head_split|].
    by intros [?|[?|?]%elem_of_cons]%elem_of_app.
Qed.

Lemma augpath_multidot_roundtrip_witness :
  exists d b x r,
    augpath_breakup posix (py "dir/foo.tar.gz") true = Ok (d, b, x) /\
    augpath posix (py "dir/foo.tar.gz") [] [] (Some (py ".v2.zip")) None None true
      = Ok r /\
    augpath_breakup posix r true = Ok (d, b, py ".v2.zip").
Proof.
  apply (augpath_multidot_roundtrip (py "dir/foo.tar.gz") (py "v2.zip")).
  by_decide.
Defined.

(** ** expandpath *)

Lemma rstrip_id c (u : str) : ~ [c] `suffix_of` u -> PyStr.rstrip c u = u.
Proof.
  destruct u as [|x u _] using rev_ind; [done|]. intros Hs.
  apply rstrip_keep. intros ->. apply Hs. by exists u.
Qed.

Lemma normpath_nonempty p : posixpath.normpath p <> [].
Proof.
  unfold posixpath.normpath. case_bool_decide; [done|].
  cbv zeta. case_bool_decide; done.
Qed.







Lemma expanduser_tilde os u :
  environ os !! py "HOME" = Some u ->
  posixpath.expanduser os (py "~")
    = Ok (if bool_decide (PyStr.rstrip chr_sep u = []) then [chr_sep]
          else PyStr.rstrip chr_sep u).
Proof.
  intros Hu. unfold posixpath.expanduser, environ_item.
  change (PyStr.startswith (py "~") [chr_tilde]) with true.
  change (PyStr.find_from posixpath.sep 1 (py "~")) with (-1).
  change (PyStr.from _ (py "~")) with (@nil ascii).
  cbn [negb]. cbv zeta.
  change (Z.of_nat (length (py "~")) =? 1) with true. cbv iota.
  rewrite Hu. rewrite bool_decide_eq_false_2 by discriminate.
  cbn [mbind result_bind]. by rewrite app_nil_r.
Qed.

Lemma expanduser_tilde_sep os u k :
  environ os !! py "HOME" = Some u ->
  posixpath.expanduser os (py "~" ++ chr_sep :: k)
    = Ok (PyStr.rstrip chr_sep u ++ chr_sep :: k).
Proof.
  intros Hu. unfold posixpath.expanduser, environ_item.
  change (PyStr.startswith (py "~" ++ chr_sep :: k) [chr_tilde])
    with (bool_decide ([chr_tilde] `prefix_of` chr_tilde :: chr_sep :: k)).
  rewrite bool_decide_eq_true_2 by (by eexists).
  assert (PyStr.find_from posixpath.sep 1 (py "~" ++ chr_sep :: k) = 1) as ->.
  { reflexivity. }
  change (PyStr.from 1 (py "~" ++ chr_sep :: k)) with (chr_sep :: k).
  cbn [negb Z.ltb Z.compare Z.eqb Pos.eqb]. cbv zeta.
  rewrite Hu. rewrite bool_decide_eq_false_2 by discriminate.
  cbn [mbind result_bind].
  by rewrite bool_decide_eq_false_2 by (by destruct (PyStr.rstrip _ _)).
Qed.

(** X8. On a POSIX host with [HOME] set to a directory that does not end
    with a separator, [expandpath] undoes [shrinkuser] up to
    normalization: for a path at or under the home directory whose
    normal form has no [$], expanding the shrunk path gives the normal
    form. *)
Theorem shrinkuser_expandpath (os : OsEnv) (p u : str) :
  environ os !! py "HOME" = Some u ->
  ~ [chr_sep] `suffix_of` u ->
  posixpath.normpath p = u \/ (u ++ [chr_sep]) `prefix_of` posixpath.normpath p ->
  "$"%char ∉ posixpath.normpath p ->
  exists s,
    shrinkuser (posix_host os) p (py "~") = Ok s /\
    expandpath (posix_host os) s = Ok (posixpath.normpath p).
Proof.
  intros Hu Hsuf Hq Hd.
  assert (userhome (posix_host os) None = Ok u) as Hh
    by (by apply userhome_current_home).
  assert (posixpath.expandvars os (posixpath.normpath p)
          = Ok (posixpath.normpath p)) as Hv.
  { unfold posixpath.expandvars. by rewrite bool_decide_eq_true_2. }
  destruct Hq as [Hq|[k Hk]].
  - (* the home directory itself: shrunk to the marker *)
    exists (py "~"). split.
    + by apply (shrinkuser_home (posix_host os) p (py "~") u).
    + unfold expandpath. cbn [host_path host_os posix_host posix
        os_expanduser os_expandvars].
      rewrite (expanduser_tilde os u Hu), (rstrip_id _ u Hsuf).
      rewrite bool_decide_eq_false_2
        by (rewrite <- Hq; apply normpath_nonempty).
      cbn [mbind result_bind]. by rewrite <- Hq, Hv.
  - (* under the home directory: the marker, then the rest *)
    rewrite <- app_assoc in Hk. cbn [app] in Hk.
    exists (py "~" ++ chr_sep :: k). split.
    + by apply (shrinkuser_under (posix_host os) p (py "~") u Hh k).
    + unfold expandpath. cbn [host_path host_os posix_host posix
        os_expanduser os_expandvars].
      rewrite (expanduser_tilde_sep os u k Hu), (rstrip_id _ u Hsuf).
      cbn [mbind result_bind]. by rewrite <- Hk, Hv.
Qed.

Lemma shrinkuser_expandpath_witness :
  (exists s, shrinkuser (posix_host os_user) (py "/home//user/") (py "~") = Ok s /\
             expandpath (posix_host os_user) s = Ok (py "/home/user")) /\
  (exists s, shrinkuser (posix_host os_user) (py "/home/user/./a/b") (py "~") = Ok s /\
             expandpath (posix_host os_user) s = Ok (py "/home/user/a/b")).
Proof.
  split.
  - apply (shrinkuser_expandpath os_user (py "/home//user/") (py "/home/user")).
    + reflexivity.
    + by_decide.
    + left. reflexivity.
    + by_decide.
  - apply (shrinkuser_expandpath os_user (py "/home/user/./a/b") (py "/home/user")).
    + reflexivity.
    + by_decide.
    + right. by exists (py "a/b").
    + by_decide.
Defined.

(** X9. With the home directory itself as the marker, [shrinkuser] only
    normalizes: nothing but the home prefix is ever replaced. *)
Theorem shrinkuser_own_marker (h : Host) (p u : str) :
  userhome h None = Ok u ->
  shrinkuser h p u = Ok (os_normpath (host_path h) p).
Proof.
  intros Hu. set (q := os_normpath (host_path h) p).
  destruct (decide (q = u)) as [Hq|Hq].
  - rewrite (shrinkuser_home h p u u Hu Hq). by rewrite <- Hq.
  - destruct (decide ((u ++ [os_sep (host_path h)]) `prefix_of` q)) as [[k Hk]|Hk].
    + rewrite <- app_assoc in Hk.
      rewrite (shrinkuser_under h p u u Hu k Hk). by rewrite Hk.
    + by apply (shrinkuser_other h p u u Hu).
Qed.

Lemma shrinkuser_own_marker_witness :
  shrinkuser (posix_host os_user) (py "/home/user//docs/./a") (py "/home/user")
    = Ok (py "/home/user/docs/a").
Proof.
  apply (shrinkuser_own_marker (posix_host os_user) (py "/home/user//docs/./a")
           (py "/home/user")).
  reflexivity.
Defined.

(** ** userhome *)

(** X10. On win32 the home directory of the current user is found exactly
    when one of [HOME], [USERPROFILE] and [HOMEPATH] is set, [HOMEDRIVE]
    alone being of no use; [USERPROFILE] is used when [HOME] is not set,
    [HOMEDRIVE] joined with [HOMEPATH] when neither is, and the only
    failure is the [OSError] of the code. *)
Theorem userhome_win32_resolution (h : Host) :
  is_win32 h = true ->
  ((exists r, userhome h None = Ok r) <->
   is_Some (environ (host_os h) !! py "HOME") \/
   is_Some (environ (host_os h) !! py "USERPROFILE") \/
   is_Some (environ (host_os h) !! py "HOMEPATH")) /\
  (environ (host_os h) !! py "HOME" = None ->
   forall v, environ (host_os h) !! py "USERPROFILE" = Some v ->
             userhome h None = Ok v) /\
  (environ (host_os h) !! py "HOME" = None ->
   environ (host_os h) !! py "USERPROFILE" = None ->
   forall v, environ (host_os h) !! py "HOMEPATH" = Some v ->
     userhome h None
       = Ok (os_join (host_path h)
               (default [] (environ (host_os h) !! py "HOMEDRIVE")) v)) /\
  (forall e, userhome h None = Raise e ->
     e = OSError (py "Cannot determine the user's home directory")).
Proof.
  intros Hw. unfold is_win32 in Hw.
  cbn [userhome]. unfold userhome_current, environ_item. rewrite Hw.
  destruct (environ (host_os h) !! py "HOME") as [v1|];
    [rewrite bool_decide_eq_true_2 by done|unset_vars];
  [|destruct (environ (host_os h) !! py "USERPROFILE") as [v2|];
    [rewrite bool_decide_eq_true_2 by done|unset_vars];
   [|destruct (environ (host_os h) !! py "HOMEPATH") as [v3|];
     [rewrite bool_decide_eq_true_2 by done|unset_vars]]];
    cbn [mbind result_bind].
  all: repeat split; intros; simplify_eq; eauto.
  all: match goal with
       | H : _ \/ _ \/ _ |- _ =>
           destruct H as [[? ?]|[[? ?]|[? ?]]]; discriminate
       | H : exists _, _ |- _ => destruct H; discriminate
       end.
Qed.

Lemma userhome_win32_resolution_witness :
  (forall ntpath,
     userhome (win32_host ntpath
       {| environ := {[ py "HOMEDRIVE" := py "C:" ]}; getuid := 0;
          pwd_by_uid := ∅; pwd_by_name := ∅; fs_exists := fun _ => false |})
       None
     = Raise (OSError (py "Cannot determine the user's home directory"))) /\
  (forall ntpath,
     userhome (win32_host ntpath
       {| environ := {[ py "USERPROFILE" := py "C:\Users\me" ]}; getuid := 0;
          pwd_by_uid := ∅; pwd_by_name := ∅; fs_exists := fun _ => false |})
       None
     = Ok (py "C:\Users\me")).
Proof.
  split; intros ntpath.
  - match goal with |- userhome ?h None = _ =>
      pose proof (userhome_win32_resolution h eq_refl) as (Hiff & _ & _ & Herr);
      destruct (userhome h None) as [r|e] eqn:Hr
    end.
    + exfalso. destruct (proj1 Hiff (ex_intro _ r eq_refl)) as [[? H]|[[? H]|[? H]]];
        vm_compute in H; discriminate.
    + by rewrite (Herr e eq_refl).
  - match goal with |- userhome ?h None = _ =>
      pose proof (userhome_win32_resolution h eq_refl) as (_ & Hup & _)
    end.
    apply Hup; reflexivity.
Defined.

(** X11. On a POSIX host the home directory of the current user is found
    exactly when [HOME] is set or the account database has a record of the
    user id; with [HOME] not set the recorded directory is the result,
    and the only failure is a [KeyError]. *)
Theorem userhome_posix_resolution (h : Host) :
  is_win32 h = false ->
  ((exists r, userhome h None = Ok r) <->
   is_Some (environ (host_os h) !! py "HOME") \/
   is_Some (pwd_by_uid (host_os h) !! getuid (host_os h))) /\
  (environ (host_os h) !! py "HOME" = None ->
   forall pwent, pwd_by_uid (host_os h) !! getuid (host_os h) = Some pwent ->
                 userhome h None = Ok (pw_dir pwent)) /\
  (forall e, userhome h None = Raise e -> exists msg, e = KeyError msg).
Proof.
  intros Hw. cbn [userhome].
  destruct (environ (host_os h) !! py "HOME") as [v|] eqn:Hv.
  - rewrite (userhome_current_home h v Hv).
    repeat split; intros; simplify_eq; eauto.
  - rewrite (userhome_current_posix h Hv Hw).
    destruct (pwd_by_uid (host_os h) !! getuid (host_os h)) as [pwent|].
    + repeat split; intros; simplify_eq; eauto.
    + repeat split; intros; simplify_eq; eauto.
      * destruct H; discriminate.
      * destruct H as [[? ?]|[? ?]]; discriminate.
Qed.

Lemma userhome_posix_resolution_witness :
  userhome (posix_host
    {| environ := ∅; getuid := 1000; pwd_by_uid := {[ 1000%N := pw_user ]};
       pwd_by_name := ∅; fs_exists := fun _ => false |}) None
  = Ok (py "/home/user").
Proof.
  match goal with |- userhome ?h None = _ =>
    pose proof (userhome_posix_resolution h eq_refl) as (_ & Hpw & _)
  end.
  apply (Hpw eq_refl pw_user). reflexivity.
Defined.

(** X12. With [HOME] set, [userhome()] is [expanduser('~')], as the
    docstring has it, exactly when [HOME] is the root directory or is not
    empty and does not end with a separator: [expanduser] strips the
    trailing separators and turns an empty result into the root. *)
Theorem userhome_expanduser (os : OsEnv) (u : str) :
  environ os !! py "HOME" = Some u ->
  (userhome (posix_host os) None = posixpath.expanduser os (py "~") <->
   u = [chr_sep] \/ (u <> [] /\ ~ [chr_sep] `suffix_of` u)).
Proof.
  intros Hu.
  assert (userhome (posix_host os) None = Ok u) as ->
    by (by apply userhome_current_home).
  rewrite (expanduser_tilde os u Hu).
  destruct (all_or_tail chr_sep u) as [Ha|(a & x & k & Hx & ->)].
  - (* separators only: expanduser gives the root *)
    set (n := length u) in Ha. clearbody n. subst u.
    rewrite rstrip_replicate, bool_decide_eq_true_2 by done. split.
    + intros [= Heq]. by left.
    + intros [Heq|[Hne Hs]]; [by rewrite Heq|]. exfalso.
      destruct n as [|n]; [done|].
      apply Hs. rewrite replicate_S_end. by eexists.
  - rewrite (rstrip_tail _ _ _ _ Hx).
    rewrite bool_decide_eq_false_2 by (by destruct a). split.
    + intros [= Heq]. right. split; [by destruct a|].
      destruct k as [|k].
      * intros [t Ht]. change (a ++ [x]) with (a ++ [x]) in Ht.
        apply app_inj_tail in Ht. tauto.
      * apply (f_equal length) in Heq.
        rewrite !length_app in Heq. simpl in Heq. lia.
    + intros [Heq|[_ Hs]].
      * exfalso. assert (x ∈ [chr_sep]) as Hin by (rewrite <- Heq; set_solver).
        apply list_elem_of_singleton in Hin. done.
      * destruct k as [|k]; [done|]. exfalso. apply Hs.
        rewrite replicate_S_end. exists (a ++ x :: replicate k chr_sep).
        by rewrite <- app_assoc.
Qed.

Lemma userhome_expanduser_witness :
  userhome (posix_host os_user) None = posixpath.expanduser os_user (py "~") /\
  userhome (posix_host os_empty_home) None
    <> posixpath.expanduser os_empty_home (py "~").
Proof.
  split.
  - apply (userhome_expanduser os_user (py "/home/user")); [reflexivity|].
    right. split; [discriminate|by_decide].
  - intros H.
    apply (userhome_expanduser os_empty_home []) in H; [|reflexivity].
    destruct H as [H|[H _]]; [discriminate|by apply H].
Defined.
